(** * MA60 crossing monitor: a shallow embedding of [main.go]

    The program polls daily candles for every USDT pair, compares the
    latest close with the 60-day simple moving average and keeps a
    per-symbol map of the last crossing.  Prices are Go [float64]
    values; they are modelled by Rocq's primitive binary64 floats, whose
    operations are the IEEE 754 ones Go uses.  The global map
    [trackedAssets] is threaded explicitly through the analysis. *)

From Stdlib Require Import ZArith String Ascii List Floats DecimalString.
From stdpp Require Import gmap strings list.

Open Scope string_scope.

(** ** Go library functions used by the program *)

Module Go.

(** A Go [error] value: [None] is [nil]. *)
Definition error : Type := option string.

(** The float64 comparisons [>], [>=], [<] and [<=]; each is false when
    an operand is NaN. *)
Definition gt (a b : float) : bool := PrimFloat.ltb b a.
Definition ge (a b : float) : bool := PrimFloat.leb b a.
Definition lt (a b : float) : bool := PrimFloat.ltb a b.
Definition le (a b : float) : bool := PrimFloat.leb a b.

(** *** [fmt]'s [%f] and [%.2f] verbs

    [strconv.FormatFloat(x, 'f', prec, 64)] prints the exact binary
    value of [x] rounded to [prec] decimals, ties to even; [fmt] then
    shows the sign of negative numbers and writes the special values
    as [NaN], [+Inf] and [-Inf]. *)

Definition roundHalfEven (num den : Z) : Z :=
  let q := (num / den)%Z in
  let r := (num mod den)%Z in
  match (2 * r ?= den)%Z with
  | Lt => q
  | Gt => (q + 1)%Z
  | Eq => if Z.even q then q else (q + 1)%Z
  end.

(** [|m * 2^e| * 10^prec] rounded to an integer. *)
Definition scaled (prec : nat) (m : positive) (e : Z) : Z :=
  let p := (10 ^ Z.of_nat prec)%Z in
  if (0 <=? e)%Z then (Z.pos m * 2 ^ e * p)%Z
  else roundHalfEven (Z.pos m * p) (2 ^ (- e)).

Definition digitChar (d : Z) : ascii :=
  ascii_of_nat (48 + Z.to_nat d).

(** The [k] low decimal digits of [n], most significant first. *)
Fixpoint lowDigits (k : nat) (n : Z) (acc : string) : string :=
  match k with
  | O => acc
  | S k' => lowDigits k' (n / 10)%Z (String (digitChar (n mod 10)) acc)
  end.

Definition fixedDigits (prec : nat) (n : Z) : string :=
  let p := (10 ^ Z.of_nat prec)%Z in
  let int := NilZero.string_of_uint (N.to_uint (Z.to_N (n / p))) in
  match prec with
  | O => int
  | _ => int ++ "." ++ lowDigits prec (n mod p) ""
  end.

Definition signStr (neg : bool) : string := if neg then "-" else "".

Definition formatFixed (prec : nat) (x : float) : string :=
  match Prim2SF x with
  | S754_nan => "NaN"
  | S754_infinity false => "+Inf"
  | S754_infinity true => "-Inf"
  | S754_zero s => signStr s ++ fixedDigits prec 0
  | S754_finite s m e => signStr s ++ fixedDigits prec (scaled prec m e)
  end.

(** [%f] is [%.6f]. *)
Definition fmt_f : float -> string := formatFixed 6.
Definition fmt_2f : float -> string := formatFixed 2.

End Go.

(** *** [strconv.ParseFloat] on plain decimal literals

    The analysis takes [strconv.ParseFloat] as a parameter.  To run it
    on concrete candles, [parseDecimal] gives the function on the
    literals an exchange sends: an optional sign, digits and an optional
    fraction, rounded to the nearest binary64 value, ties to even.
    Anything else is answered with 0 and a syntax error (exponents,
    hexadecimal literals, [inf] and [nan] are left out). *)

Module Strconv.

Definition isDigit (c : ascii) : bool :=
  let n := nat_of_ascii c in (48 <=? n)%nat && (n <=? 57)%nat.

(** Reads a run of digits: the number read so far, how many digits
    were read, and the rest of the input. *)
Fixpoint readDigits (s : string) (acc : Z) (n : nat) : Z * nat * string :=
  match s with
  | String c r =>
      if isDigit c
      then readDigits r (10 * acc + Z.of_nat (nat_of_ascii c - 48))%Z (S n)
      else (acc, n, s)
  | EmptyString => (acc, n, s)
  end.

(** [(-1)^neg * m / 10^k] as a binary64 value. *)
Definition decimalValue (neg : bool) (m : Z) (k : nat) : spec_float :=
  match m with
  | Z.pos p =>
      SFdiv prec emax (S754_finite neg p 0)
            (S754_finite false (Z.to_pos (10 ^ Z.of_nat k)) 0)
  | _ => S754_zero neg
  end.

Definition parseDecimal (s : string) : float * Go.error :=
  let '(neg, s1) :=
    match s with
    | String "-" r => (true, r)
    | String "+" r => (false, r)
    | _ => (false, s)
    end in
  let '(ip, ni, s2) := readDigits s1 0 0 in
  let '(m, nf, s3) :=
    match s2 with
    | String "." r => readDigits r ip 0
    | _ => (ip, O, s2)
    end in
  if ((ni + nf =? 0)%nat || negb (String.eqb s3 ""))%bool
  then (0%float, Some "invalid syntax")
  else
    let v := decimalValue neg m nf in
    match v with
    | S754_infinity _ => (SF2Prim v, Some "value out of range")
    | _ => (SF2Prim v, None)
    end.

End Strconv.

(** ** The exchange client's types (the fields the program reads) *)

Module Binance.

Record Kline := { Close : string }.

Record SymbolInfo := {
  Symbol : string;
  Status : string;
  QuoteAsset : string;
  IsSpotTradingAllowed : bool
}.

Record ExchangeInfo := { Symbols : list SymbolInfo }.

#[global] Instance Kline_inhabited : Inhabited Kline :=
  populate {| Close := "" |}.

End Binance.

(** ** The program's types *)

(** [TrackedAsset]: the state kept for one symbol. *)
Record TrackedAsset := {
  Symbol : string;
  Status : string;      (* "breakout" or "breakdown" *)
  EventPrice : float;
  EventDate : string
}.

(** The four named results of [trackAndAnalyze]. *)
Record Reports := {
  dailyBreakouts : list string;
  dailyBreakdowns : list string;
  trackedGains : list string;
  trackedLosses : list string
}.

Definition noReports : Reports :=
  {| dailyBreakouts := []; dailyBreakdowns := [];
     trackedGains := []; trackedLosses := [] |}.

Definition appendBreakout (r : Reports) (x : string) : Reports :=
  {| dailyBreakouts := dailyBreakouts r ++ [x];
     dailyBreakdowns := dailyBreakdowns r;
     trackedGains := trackedGains r;
     trackedLosses := trackedLosses r |}.

Definition appendBreakdown (r : Reports) (x : string) : Reports :=
  {| dailyBreakouts := dailyBreakouts r;
     dailyBreakdowns := dailyBreakdowns r ++ [x];
     trackedGains := trackedGains r;
     trackedLosses := trackedLosses r |}.

Definition appendGain (r : Reports) (x : string) : Reports :=
  {| dailyBreakouts := dailyBreakouts r;
     dailyBreakdowns := dailyBreakdowns r;
     trackedGains := trackedGains r ++ [x];
     trackedLosses := trackedLosses r |}.

Definition appendLoss (r : Reports) (x : string) : Reports :=
  {| dailyBreakouts := dailyBreakouts r;
     dailyBreakdowns := dailyBreakdowns r;
     trackedGains := trackedGains r;
     trackedLosses := trackedLosses r ++ [x] |}.

Record DingTalkMarkdown := { Title : string; Text : string }.
Record DingTalkMessage := { MsgType : string; Markdown : DingTalkMarkdown }.

(** The file [state.json] as [os.ReadFile] sees it. *)
Inductive FileState :=
| NoFile
| Unreadable
| FileData (data : string).

(** What a pass reads and changes outside the process: the state file,
    whether it can be written, and the requests posted to the webhook
    (whether a request is delivered changes nothing in the program). *)
Record World := {
  stateFile : FileState;
  writable : bool;
  posted : list DingTalkMessage
}.

Definition nl : string := String (ascii_of_nat 10) "".

(** ** The analysis *)

Section Monitor.

(** [strconv.ParseFloat(_, 64)]. *)
Variable ParseFloat : string -> float * Go.error.
(** [NewKlinesService().Symbol(s).Interval("1d").Limit(61).Do(ctx)],
    one answer per symbol for the duration of a pass. *)
Variable KlinesDo : string -> list Binance.Kline * Go.error.
(** [NewExchangeInfoService().Do(ctx)]. *)
Variable ExchangeInfoDo : Binance.ExchangeInfo * Go.error.
(** [time.Now().Format("2006-01-02")] during the pass. *)
Variable today : string.
(** [json.MarshalIndent(_, "", "  ")] and [json.Unmarshal] into a
    fresh map. *)
Variable MarshalIndent : gmap string TrackedAsset -> string * Go.error.
Variable Unmarshal : string -> gmap string TrackedAsset * Go.error.

(** [p, _ := strconv.ParseFloat(klines[i].Close, 64)].  The guard on
    [len(klines)] keeps every index below in range (see
    [klines_index_in_range]). *)
Definition closeAt (klines : list Binance.Kline) (i : nat) : float :=
  (ParseFloat (Binance.Close (klines !!! i))).1.

(** [for i := 0; i < 60; i++ { sum += p }]: [n] rounds left, next
    index [i]. *)
Fixpoint sumLoop (klines : list Binance.Kline) (n i : nat) (sum : float)
  : float :=
  match n with
  | O => sum
  | S n' => sumLoop klines n' (S i) (sum + closeAt klines i)%float
  end.

Definition ma60 (klines : list Binance.Kline) : float :=
  (sumLoop klines 60 0 0 / 60)%float.

Definition previousClose (klines : list Binance.Kline) : float :=
  closeAt klines 59.

Definition latestClose (klines : list Binance.Kline) : float :=
  closeAt klines 60.

Definition isNewBreakout (klines : list Binance.Kline) : bool :=
  Go.gt (latestClose klines) (ma60 klines)
  && Go.le (previousClose klines) (ma60 klines).

Definition isNewBreakdown (klines : list Binance.Kline) : bool :=
  Go.lt (latestClose klines) (ma60 klines)
  && Go.ge (previousClose klines) (ma60 klines).

Definition breakoutReport (s : string) (latest : float) : string :=
  s ++ " (突破价: " ++ Go.fmt_f latest ++ ")".

Definition breakdownReport (s : string) (latest : float) : string :=
  s ++ " (跌破价: " ++ Go.fmt_f latest ++ ")".

Definition gainReport (s : string) (asset : TrackedAsset) (latest : float)
  : string :=
  let gain := ((latest - EventPrice asset) / EventPrice asset * 100)%float in
  s ++ " (从 " ++ Go.fmt_f (EventPrice asset) ++ " 至今涨幅: "
    ++ Go.fmt_2f gain ++ "%)".

Definition lossReport (s : string) (asset : TrackedAsset) (latest : float)
  : string :=
  let loss := ((EventPrice asset - latest) / EventPrice asset * 100)%float in
  s ++ " (从 " ++ Go.fmt_f (EventPrice asset) ++ " 至今跌幅: "
    ++ Go.fmt_2f loss ++ "%)".

(** The third case of the loop body: the two [if]s on a tracked
    entry, one after the other. *)
Definition trackHistory (s : string) (asset : TrackedAsset)
    (klines : list Binance.Kline) (r : Reports) : Reports :=
  let r1 :=
    if String.eqb (Status asset) "breakout"
       && Go.gt (latestClose klines) (ma60 klines)
    then appendGain r (gainReport s asset (latestClose klines))
    else r in
  if String.eqb (Status asset) "breakdown"
     && Go.lt (latestClose klines) (ma60 klines)
  then appendLoss r1 (lossReport s asset (latestClose klines))
  else r1.

(** One round of [for _, s := range symbols]: the map and the four
    lists before, and after. *)
Definition loopBody (acc : gmap string TrackedAsset * Reports) (s : string)
  : gmap string TrackedAsset * Reports :=
  let '(trackedAssets, r) := acc in
  let '(klines, err) := KlinesDo s in
  if bool_decide (err <> None) || (length klines <? 61)%nat then acc
  else if isNewBreakout klines then
    (<[s := {| Symbol := s; Status := "breakout";
               EventPrice := latestClose klines; EventDate := today |}]>
       trackedAssets,
     appendBreakout r (breakoutReport s (latestClose klines)))
  else if isNewBreakdown klines then
    (<[s := {| Symbol := s; Status := "breakdown";
               EventPrice := latestClose klines; EventDate := today |}]>
       trackedAssets,
     appendBreakdown r (breakdownReport s (latestClose klines)))
  else
    match trackedAssets !! s with
    | Some asset => (trackedAssets, trackHistory s asset klines r)
    | None => acc
    end.

Definition analyzeSymbols (symbols : list string)
    (acc : gmap string TrackedAsset * Reports)
  : gmap string TrackedAsset * Reports :=
  fold_left loopBody symbols acc.

Definition getAllUSDTSymbols : list string * Go.error :=
  let '(exchangeInfo, err) := ExchangeInfoDo in
  match err with
  | Some e => ([], Some e)
  | None =>
      (map Binance.Symbol
         (List.filter
            (fun s => String.eqb (Binance.QuoteAsset s) "USDT"
                      && String.eqb (Binance.Status s) "TRADING"
                      && Binance.IsSpotTradingAllowed s)
            (Binance.Symbols exchangeInfo)),
       None)
  end.

(** [trackAndAnalyze]: the map on entry, then the map and the four
    lists on return. *)
Definition trackAndAnalyze (trackedAssets : gmap string TrackedAsset)
  : gmap string TrackedAsset * Reports :=
  let '(symbols, err) := getAllUSDTSymbols in
  match err with
  | Some _ => (trackedAssets, noReports)
  | None => analyzeSymbols symbols (trackedAssets, noReports)
  end.

(** ** State file *)

Definition loadStateFromFile (w : World)
  : gmap string TrackedAsset * Go.error :=
  match stateFile w with
  | NoFile => (∅, None)
  | Unreadable => (∅, Some "读取状态文件失败")
  | FileData data =>
      if (String.length data =? 0)%nat then (∅, None)
      else
        let '(m, err) := Unmarshal data in
        match err with
        | Some _ => (m, Some "解析状态文件JSON失败")
        | None => (m, None)
        end
  end.

Definition saveStateToFile (trackedAssets : gmap string TrackedAsset)
    (w : World) : World * Go.error :=
  let '(data, err) := MarshalIndent trackedAssets in
  match err with
  | Some _ => (w, Some "序列化状态到JSON失败")
  | None =>
      if writable w
      then ({| stateFile := FileData data; writable := writable w;
               posted := posted w |}, None)
      else (w, Some "写入状态文件失败")
  end.

(** ** Report *)

Definition formatSection (builder title : string) (items : list string)
  : string :=
  let b1 := builder ++ ("**" ++ title ++ "**" ++ nl ++ nl) in
  let b2 :=
    if (0 <? length items)%nat
    then fold_left (fun b item => b ++ ("- " ++ item ++ nl)) items b1
    else b1 ++ ("- 无" ++ nl) in
  b2 ++ nl.

Definition reportText (r : Reports) : string :=
  let b0 := "### MA60 均线监控日报 (" ++ today ++ ")" ++ nl ++ nl in
  let b1 := formatSection b0 "🚀 当日突破 (MA60)" (dailyBreakouts r) in
  let b2 := formatSection b1 "🚨 当日跌破 (MA60)" (dailyBreakdowns r) in
  let b3 := formatSection b2 "📈 已突破币种追踪" (trackedGains r) in
  formatSection b3 "📉 已跌破币种追踪" (trackedLosses r).



(** ** Reading a pass symbol by symbol

    The definitions below are not functions of the program: they
    name, for one symbol, what the loop body decides, so that the
    theorems can speak of a whole pass. *)

(** The candles of [s] when the loop body does not skip it. *)
Definition candlesOf (s : string) : option (list Binance.Kline) :=
  let '(klines, err) := KlinesDo s in
  if bool_decide (err <> None) || (length klines <? 61)%nat then None
  else Some klines.

(** The entry the loop body writes for [s], if it writes one. *)
Definition eventOf (s : string) : option TrackedAsset :=
  match candlesOf s with
  | Some klines =>
      if isNewBreakout klines then
        Some {| Symbol := s; Status := "breakout";
                EventPrice := latestClose klines; EventDate := today |}
      else if isNewBreakdown klines then
        Some {| Symbol := s; Status := "breakdown";
                EventPrice := latestClose klines; EventDate := today |}
      else None
  | None => None
  end.

(** What one round for [s] adds to each of the four lists. *)
Definition breakoutsOf (s : string) : list string :=
  match candlesOf s with
  | Some klines =>
      if isNewBreakout klines
      then [breakoutReport s (latestClose klines)] else []
  | None => []
  end.

Definition breakdownsOf (s : string) : list string :=
  match candlesOf s with
  | Some klines =>
      if isNewBreakout klines then []
      else if isNewBreakdown klines
           then [breakdownReport s (latestClose klines)] else []
  | None => []
  end.

Definition historyOf (trackedAssets : gmap string TrackedAsset)
    (s : string) : Reports :=
  match candlesOf s with
  | Some klines =>
      if isNewBreakout klines || isNewBreakdown klines then noReports
      else match trackedAssets !! s with
           | Some asset => trackHistory s asset klines noReports
           | None => noReports
           end
  | None => noReports
  end.

Definition gainsOf (trackedAssets : gmap string TrackedAsset)
    (s : string) : list string :=
  trackedGains (historyOf trackedAssets s).

Definition lossesOf (trackedAssets : gmap string TrackedAsset)
    (s : string) : list string :=
  trackedLosses (historyOf trackedAssets s).

(** The property that an entry changes only on the opposite crossing,
    as a property of one pass. *)
Definition changedOnlyByOppositeCrossing : Prop :=
  forall (trackedAssets : gmap string TrackedAsset) s e,
    trackedAssets !! s = Some e ->
    (trackAndAnalyze trackedAssets).1 !! s <> Some e ->
    exists klines,
      candlesOf s = Some klines /\
      ((Status e = "breakout" /\ isNewBreakdown klines = true) \/
       (Status e = "breakdown" /\ isNewBreakout klines = true)).


End Monitor.

(** The mean of a list of float64 values, summed from the left: the
    words "arithmetic mean" of the specification. *)
Definition arithmeticMean (l : list float) : float :=
  (fold_left PrimFloat.add l 0
   / PrimFloat.of_uint63 (Uint63.of_Z (Z.of_nat (length l))))%float.

Definition appendReports (r r' : Reports) : Reports :=
  {| dailyBreakouts := dailyBreakouts r ++ dailyBreakouts r';
     dailyBreakdowns := dailyBreakdowns r ++ dailyBreakdowns r';
     trackedGains := trackedGains r ++ trackedGains r';
     trackedLosses := trackedLosses r ++ trackedLosses r' |}.

(** The four lists a pass over [symbols] builds, symbol by symbol, from
    the map [trackedAssets] it starts with. *)
Definition passReports (ParseFloat : string -> float * Go.error)
    (KlinesDo : string -> list Binance.Kline * Go.error)
    (trackedAssets : gmap string TrackedAsset) (symbols : list string)
  : Reports :=
  {| dailyBreakouts := flat_map (breakoutsOf ParseFloat KlinesDo) symbols;
     dailyBreakdowns := flat_map (breakdownsOf ParseFloat KlinesDo) symbols;
     trackedGains :=
       flat_map (gainsOf ParseFloat KlinesDo trackedAssets) symbols;
     trackedLosses :=
       flat_map (lossesOf ParseFloat KlinesDo trackedAssets) symbols |}.

(** ** Notions used to state further properties *)

(** Every entry sits under its own symbol and carries one of the two
    statuses the program writes. *)
Definition wellFormed (trackedAssets : gmap string TrackedAsset) : Prop :=
  forall k e,
    trackedAssets !! k = Some e ->
    Symbol e = k /\ (Status e = "breakout" \/ Status e = "breakdown").

Definition totalReports (r : Reports) : nat :=
  length (dailyBreakouts r) + length (dailyBreakdowns r)
  + length (trackedGains r) + length (trackedLosses r).

(** The lines of a section: one bullet per item. *)
Fixpoint bullets (items : list string) : string :=
  match items with
  | [] => ""
  | item :: rest => "- " ++ item ++ nl ++ bullets rest
  end.

(** A section of the report as one piece of text. *)
Definition sectionText (title : string) (items : list string) : string :=
  "**" ++ title ++ "**" ++ nl ++ nl
  ++ match items with
     | [] => "- 无" ++ nl
     | _ => bullets items
     end
  ++ nl.

(** The float64 test [x != x], true of NaN only. *)
Definition isNaN (x : float) : bool := negb (PrimFloat.eqb x x).

(** ** Concrete passes *)

Module Demo.

Definition candles (closes : list string) : list Binance.Kline :=
  map Binance.Build_Kline closes.

(** A candle service answering from a table; other symbols fail. *)
Fixpoint klinesFrom (table : list (string * list string)) (s : string)
  : list Binance.Kline * Go.error :=
  match table with
  | [] => ([], Some "Invalid symbol.")
  | (k, closes) :: rest =>
      if String.eqb k s then (candles closes, None)
      else klinesFrom rest s
  end.

Definition listing (symbols : list string)
  : Binance.ExchangeInfo * Go.error :=
  ({| Binance.Symbols :=
        map (fun s => {| Binance.Symbol := s; Binance.Status := "TRADING";
                         Binance.QuoteAsset := "USDT";
                         Binance.IsSpotTradingAllowed := true |}) symbols |},
   None).


Definition today : string := "2024-03-05".



(** MA60 = 50, yesterday 49, today 51. *)
Definition crossingUp : list string :=
  repeat "50" 58 ++ ["51"; "49"; "51"].

(** MA60 = 50, yesterday 51, today 49. *)
Definition crossingDown : list string :=
  repeat "50" 58 ++ ["49"; "51"; "49"].

(** MA60 = 1, yesterday 1, today's close does not parse. *)
Definition unparsedLatest : list string :=
  repeat "1" 60 ++ ["abc"].

(** Flat at 100 with yesterday 105 and today 110: above the average
    on both days. *)
Definition stillAbove : list string :=
  repeat "100" 59 ++ ["105"; "110"].

(** Flat at 100 with yesterday 95 and today 90: below on both days. *)
Definition stillBelow : list string :=
  repeat "100" 59 ++ ["95"; "90"].

(** Flat at 100, today exactly on the average. *)
Definition onAverage : list string := repeat "100" 61.

Definition tooShort : list string := repeat "100" 60.

Definition market : list (string * list string) :=
  [("ABCUSDT", crossingUp); ("XYZUSDT", crossingDown);
   ("BADUSDT", unparsedLatest);
   ("UPUSDT", stillAbove); ("DOWNUSDT", stillBelow);
   ("FLATUSDT", onAverage); ("NEWUSDT", tooShort)].

Definition symbols : list string :=
  ["ABCUSDT"; "XYZUSDT"; "BADUSDT"; "UPUSDT"; "DOWNUSDT"; "FLATUSDT";
   "NEWUSDT"; "GONEUSDT"].

Definition asset (s status : string) (price : float) (date : string)
  : TrackedAsset :=
  {| Symbol := s; Status := status; EventPrice := price;
     EventDate := date |}.

Definition tracked0 : gmap string TrackedAsset :=
  <["ABCUSDT" := asset "ABCUSDT" "breakout" 40 "2024-02-01"]>
  (<["UPUSDT" := asset "UPUSDT" "breakout" 100 "2024-02-10"]>
  (<["DOWNUSDT" := asset "DOWNUSDT" "breakdown" 100 "2024-02-11"]>
  (<["FLATUSDT" := asset "FLATUSDT" "breakout" 80 "2024-01-15"]>
  (<["NEWUSDT" := asset "NEWUSDT" "breakdown" 3 "2024-03-01"]> ∅)))).

Definition pass (trackedAssets : gmap string TrackedAsset)
  : gmap string TrackedAsset * Reports :=
  trackAndAnalyze Strconv.parseDecimal (klinesFrom market)
    (listing symbols) today trackedAssets.



(** [strconv.ParseFloat] also reads the word NaN. *)
Definition parseWithNaN (s : string) : float * Go.error :=
  if String.eqb s "NaN" then (PrimFloat.nan, None)
  else Strconv.parseDecimal s.

(** One close of the sixty is NaN, so the average is NaN. *)
Definition nanInHistory : list string :=
  repeat "100" 30 ++ ["NaN"] ++ repeat "100" 28 ++ ["90"; "120"].

(** An exchange listing with pairs the program leaves out. *)
Definition mixedListing : Binance.ExchangeInfo :=
  {| Binance.Symbols :=
       [ {| Binance.Symbol := "BTCUSDT"; Binance.Status := "TRADING";
            Binance.QuoteAsset := "USDT";
            Binance.IsSpotTradingAllowed := true |};
         {| Binance.Symbol := "ETHBTC"; Binance.Status := "TRADING";
            Binance.QuoteAsset := "BTC";
            Binance.IsSpotTradingAllowed := true |};
         {| Binance.Symbol := "LUNAUSDT"; Binance.Status := "BREAK";
            Binance.QuoteAsset := "USDT";
            Binance.IsSpotTradingAllowed := true |};
         {| Binance.Symbol := "PERPUSDT"; Binance.Status := "TRADING";
            Binance.QuoteAsset := "USDT";
            Binance.IsSpotTradingAllowed := false |};
         {| Binance.Symbol := "ETHUSDT"; Binance.Status := "TRADING";
            Binance.QuoteAsset := "USDT";
            Binance.IsSpotTradingAllowed := true |} ] |}.

End Demo.

(** ** Facts on float64 comparisons *)

Lemma SFcompare_antisym (x y : spec_float) :
  SFcompare y x = option_map CompOpp (SFcompare x y).
Proof.
  destruct x as [sx|sx| |sx mx ex], y as [sy|sy| |sy my ey]; simpl;
    try reflexivity;
    try (destruct sx; reflexivity);
    try (destruct sy; reflexivity);
    try (destruct sx, sy; reflexivity).
  destruct sx, sy; simpl; try reflexivity;
    rewrite (Z.compare_antisym ey ex);
    destruct (ey ?= ex)%Z; simpl; try reflexivity;
    change (Pos.compare_cont Eq mx my) with (mx ?= my)%positive;
    change (Pos.compare_cont Eq my mx) with (my ?= mx)%positive;
    rewrite (Pos.compare_antisym my mx);
    destruct (my ?= mx)%positive; reflexivity.
Qed.

Lemma ltb_asym (a b : float) :
  PrimFloat.ltb a b = true -> PrimFloat.ltb b a = false.
Proof.
  rewrite !ltb_spec. unfold SFltb.
  rewrite (SFcompare_antisym (Prim2SF a) (Prim2SF b)).
  destruct (SFcompare (Prim2SF a) (Prim2SF b)) as [[]|]; simpl; congruence.
Qed.

Lemma eqb_not_ltb (a b : float) :
  PrimFloat.eqb a b = true ->
  PrimFloat.ltb a b = false /\ PrimFloat.ltb b a = false.
Proof.
  rewrite FloatAxioms.eqb_spec, !ltb_spec. unfold SFeqb, SFltb.
  rewrite (SFcompare_antisym (Prim2SF a) (Prim2SF b)).
  destruct (SFcompare (Prim2SF a) (Prim2SF b)) as [[]|]; simpl;
    split; congruence.
Qed.

(** ** The loop body, case by case *)

Section LoopBody.

Variable ParseFloat : string -> float * Go.error.
Variable KlinesDo : string -> list Binance.Kline * Go.error.
Variable today : string.

Implicit Types (s : string) (klines : list Binance.Kline).
Implicit Types (r : Reports) (trackedAssets : gmap string TrackedAsset).

(** Past the guard on [len(klines)], the indices the body reads
    exist. *)
Lemma klines_index_in_range klines i :
  61 <= length klines -> i <= 60 ->
  klines !! i = Some (klines !!! i).
Proof.
  intros Hlen Hi.
  destruct (lookup_lt_is_Some_2 klines i) as [k Hk]; [lia|].
  rewrite Hk. f_equal. symmetry. by apply list_lookup_total_correct.
Qed.

Lemma sumLoop_fold klines n i sum :
  i + n <= length klines ->
  sumLoop ParseFloat klines n i sum =
  fold_left PrimFloat.add
    (map (fun k => (ParseFloat (Binance.Close k)).1) (take n (drop i klines)))
    sum.
Proof.
  revert i sum. induction n as [|n IH]; intros i sum Hlen; [done|].
  simpl sumLoop. rewrite IH by lia.
  destruct (lookup_lt_is_Some_2 klines i) as [k Hk]; [lia|].
  rewrite (drop_S klines k i Hk). simpl.
  unfold closeAt. by rewrite (list_lookup_total_correct klines i k Hk).
Qed.

Lemma candlesOf_Some s klines :
  candlesOf KlinesDo s = Some klines <->
  KlinesDo s = (klines, None) /\ 61 <= length klines.
Proof.
  unfold candlesOf. destruct (KlinesDo s) as [kl err].
  destruct err as [e|]; simpl.
  - split; [done|]. intros [? _]; congruence.
  - destruct (Nat.ltb_spec (length kl) 61); split.
    + done.
    + intros [[= ->] ?]; lia.
    + intros [= ->]. split; [done|lia].
    + intros [[= ->] _]. done.
Qed.

Lemma candlesOf_None s klines err :
  KlinesDo s = (klines, err) ->
  candlesOf KlinesDo s = None <-> err <> None \/ length klines < 61.
Proof.
  intros HK. unfold candlesOf. rewrite HK.
  destruct err as [e|]; simpl.
  - split; [left; done | done].
  - destruct (Nat.ltb_spec (length klines) 61); split; try done.
    + right; done.
    + intros [?|?]; [done | lia].
Qed.

(** The loop body through [candlesOf]. *)
Lemma loopBody_unfold trackedAssets r s :
  loopBody ParseFloat KlinesDo today (trackedAssets, r) s =
  match candlesOf KlinesDo s with
  | None => (trackedAssets, r)
  | Some klines =>
      if isNewBreakout ParseFloat klines then
        (<[s := {| Symbol := s; Status := "breakout";
                   EventPrice := latestClose ParseFloat klines;
                   EventDate := today |}]> trackedAssets,
         appendBreakout r
           (breakoutReport s (latestClose ParseFloat klines)))
      else if isNewBreakdown ParseFloat klines then
        (<[s := {| Symbol := s; Status := "breakdown";
                   EventPrice := latestClose ParseFloat klines;
                   EventDate := today |}]> trackedAssets,
         appendBreakdown r
           (breakdownReport s (latestClose ParseFloat klines)))
      else
        match trackedAssets !! s with
        | Some asset =>
            (trackedAssets, trackHistory ParseFloat s asset klines r)
        | None => (trackedAssets, r)
        end
  end.
Proof.
  unfold loopBody, candlesOf. destruct (KlinesDo s) as [klines err].
  by destruct (bool_decide (err <> None) || (length klines <? 61)%nat).
Qed.

Lemma breakout_excludes_breakdown klines :
  isNewBreakout ParseFloat klines = true ->
  isNewBreakdown ParseFloat klines = false.
Proof.
  unfold isNewBreakout, isNewBreakdown, Go.gt, Go.lt.
  intros [Hgt _]%andb_prop. by rewrite (ltb_asym _ _ Hgt).
Qed.


Lemma on_average_not_apart (a b : float) :
  PrimFloat.eqb a b = true -> Go.gt a b = false /\ Go.lt a b = false.
Proof. intros H. unfold Go.gt, Go.lt. by destruct (eqb_not_ltb a b H). Qed.

(** C2: with at least 61 candles, MA60 is the arithmetic mean of the
    closes of the candles at indices 0 to 59, the candle at index 60
    left out; previousClose is the close at index 59 and latestClose
    the close at index 60. *)
Theorem ma60_mean_of_first_sixty klines :
  61 <= length klines ->
  ma60 ParseFloat klines =
    arithmeticMean
      (map (fun k => (ParseFloat (Binance.Close k)).1) (take 60 klines))
  /\ length (take 60 klines) = 60
  /\ (forall i, i < 60 -> take 60 klines !! i = klines !! i)
  /\ take 60 klines !! 60 = None
  /\ (exists k59, klines !! 59 = Some k59 /\
        previousClose ParseFloat klines = (ParseFloat (Binance.Close k59)).1)
  /\ (exists k60, klines !! 60 = Some k60 /\
        latestClose ParseFloat klines = (ParseFloat (Binance.Close k60)).1).
Proof.
  intros Hlen.
  assert (Htake : length (take 60 klines) = 60)
    by (rewrite length_take; lia).
  repeat split.
  - unfold ma60, arithmeticMean.
    rewrite sumLoop_fold by (simpl; lia).
    rewrite drop_0, length_map, Htake. reflexivity.
  - exact Htake.
  - intros i Hi. by apply lookup_take_lt.
  - apply lookup_ge_None. lia.
  - exists (klines !!! 59). split; [|done].
    apply klines_index_in_range; lia.
  - exists (klines !!! 60). split; [|done].
    apply klines_index_in_range; lia.
Qed.


(** C4: when latestClose equals MA60 the round adds no report and
    leaves the map as it was; a tracked-gain report needs
    latestClose > MA60 and a tracked-loss report latestClose < MA60. *)
Theorem on_average_is_silent s klines trackedAssets r :
  KlinesDo s = (klines, None) ->
  61 <= length klines ->
  (PrimFloat.eqb (latestClose ParseFloat klines) (ma60 ParseFloat klines)
     = true ->
   isNewBreakout ParseFloat klines = false /\
   isNewBreakdown ParseFloat klines = false /\
   loopBody ParseFloat KlinesDo today (trackedAssets, r) s
     = (trackedAssets, r) /\
   passReports ParseFloat KlinesDo trackedAssets [s] = noReports)
  /\
  (trackedGains (loopBody ParseFloat KlinesDo today (trackedAssets, r) s).2
     <> trackedGains r ->
   Go.gt (latestClose ParseFloat klines) (ma60 ParseFloat klines) = true)
  /\
  (trackedLosses (loopBody ParseFloat KlinesDo today (trackedAssets, r) s).2
     <> trackedLosses r ->
   Go.lt (latestClose ParseFloat klines) (ma60 ParseFloat klines) = true).
Proof.
  intros HK Hlen.
  assert (HC : candlesOf KlinesDo s = Some klines)
    by (by apply candlesOf_Some).
  rewrite loopBody_unfold, HC. repeat split.
  - unfold isNewBreakout. by destruct (on_average_not_apart _ _ H) as [-> _].
  - unfold isNewBreakdown. by destruct (on_average_not_apart _ _ H) as [_ ->].
  - destruct (on_average_not_apart _ _ H) as [Hgt Hlt].
    unfold isNewBreakout, isNewBreakdown, trackHistory.
    rewrite Hgt, Hlt. simpl.
    destruct (trackedAssets !! s); [|done].
    by rewrite !andb_false_r.
  - destruct (on_average_not_apart _ _ H) as [Hgt Hlt].
    unfold passReports. simpl. rewrite !app_nil_r.
    unfold breakoutsOf, breakdownsOf, gainsOf, lossesOf,
      historyOf, isNewBreakout, isNewBreakdown, trackHistory.
    rewrite HC, Hgt, Hlt. simpl.
    destruct (trackedAssets !! s); [|done].
    by rewrite !andb_false_r.
  - destruct (isNewBreakout ParseFloat klines); [done|].
    destruct (isNewBreakdown ParseFloat klines); [done|].
    destruct (trackedAssets !! s) as [asset|]; [|done].
    unfold trackHistory. simpl.
    destruct (Go.gt (latestClose ParseFloat klines) (ma60 ParseFloat klines));
      [done|].
    rewrite andb_false_r.
    by destruct (_ && _).
  - destruct (isNewBreakout ParseFloat klines); [done|].
    destruct (isNewBreakdown ParseFloat klines); [done|].
    destruct (trackedAssets !! s) as [asset|]; [|done].
    unfold trackHistory. simpl.
    destruct (Go.lt (latestClose ParseFloat klines) (ma60 ParseFloat klines));
      [done|].
    rewrite andb_false_r.
    by destruct (_ && _).
Qed.

(** C5: a symbol whose candles could not be fetched, or that has
    fewer than 61 of them, adds nothing to any of the four lists and
    leaves the map (its own entry, present or not, included) as it
    was; the rest of the batch is processed as if the symbol were not
    listed. *)
Theorem short_history_skipped s klines err :
  KlinesDo s = (klines, err) ->
  err <> None \/ length klines < 61 ->
  (forall acc, loopBody ParseFloat KlinesDo today acc s = acc)
  /\ (forall before after acc,
        analyzeSymbols ParseFloat KlinesDo today (before ++ s :: after) acc
        = analyzeSymbols ParseFloat KlinesDo today (before ++ after) acc)
  /\ breakoutsOf ParseFloat KlinesDo s = []
  /\ breakdownsOf ParseFloat KlinesDo s = []
  /\ (forall trackedAssets,
        gainsOf ParseFloat KlinesDo trackedAssets s = [] /\
        lossesOf ParseFloat KlinesDo trackedAssets s = []).
Proof.
  intros HK Hshort.
  assert (HC : candlesOf KlinesDo s = None)
    by (by apply (candlesOf_None s klines err)).
  assert (Hskip : forall acc, loopBody ParseFloat KlinesDo today acc s = acc).
  { intros [trackedAssets r]. by rewrite loopBody_unfold, HC. }
  split; [exact Hskip|]. split.
  - intros before after acc. unfold analyzeSymbols.
    rewrite !fold_left_app. simpl. by rewrite Hskip.
  - unfold breakoutsOf, breakdownsOf, gainsOf, lossesOf, historyOf.
    by rewrite HC.
Qed.


End LoopBody.

(** ** A whole pass *)

Section Pass.

Variable ParseFloat : string -> float * Go.error.
Variable KlinesDo : string -> list Binance.Kline * Go.error.
Variable ExchangeInfoDo : Binance.ExchangeInfo * Go.error.
Variable today : string.

Implicit Types (s : string) (klines : list Binance.Kline).
Implicit Types (r : Reports) (trackedAssets : gmap string TrackedAsset).

Lemma appendReports_noReports r : appendReports r noReports = r.
Proof. destruct r. unfold appendReports. simpl. by rewrite !app_nil_r. Qed.

Lemma appendReports_assoc r1 r2 r3 :
  appendReports (appendReports r1 r2) r3
  = appendReports r1 (appendReports r2 r3).
Proof. unfold appendReports. simpl. by rewrite !app_assoc. Qed.

Lemma trackHistory_append s asset klines r :
  trackHistory ParseFloat s asset klines r
  = appendReports r (trackHistory ParseFloat s asset klines noReports).
Proof.
  unfold trackHistory.
  destruct (_ && _), (_ && _); destruct r; unfold appendReports,
    appendGain, appendLoss; simpl; by rewrite ?app_nil_r.
Qed.

Lemma eventOf_Some s e :
  eventOf ParseFloat KlinesDo today s = Some e ->
  exists klines,
    candlesOf KlinesDo s = Some klines /\
    (isNewBreakout ParseFloat klines || isNewBreakdown ParseFloat klines)
      = true /\
    e = {| Symbol := s;
           Status := if isNewBreakout ParseFloat klines
                     then "breakout" else "breakdown";
           EventPrice := latestClose ParseFloat klines;
           EventDate := today |}.
Proof.
  unfold eventOf. destruct (candlesOf KlinesDo s) as [klines|]; [|done].
  intros He. exists klines. split; [done|].
  destruct (isNewBreakout ParseFloat klines); [by inversion He|].
  destruct (isNewBreakdown ParseFloat klines); [by inversion He|done].
Qed.

(** One round, read through the per-symbol definitions. *)
Lemma loopBody_spec trackedAssets r s :
  loopBody ParseFloat KlinesDo today (trackedAssets, r) s =
  (match eventOf ParseFloat KlinesDo today s with
   | Some e => <[s := e]> trackedAssets
   | None => trackedAssets
   end,
   appendReports r (passReports ParseFloat KlinesDo trackedAssets [s])).
Proof.
  rewrite loopBody_unfold.
  unfold passReports, eventOf, breakoutsOf, breakdownsOf, gainsOf, lossesOf,
    historyOf. simpl. rewrite !app_nil_r.
  destruct (candlesOf KlinesDo s) as [klines|];
    [|by rewrite appendReports_noReports].
  destruct (isNewBreakout ParseFloat klines).
  { unfold appendReports, appendBreakout. simpl. by rewrite !app_nil_r. }
  destruct (isNewBreakdown ParseFloat klines).
  { unfold appendReports, appendBreakdown. simpl. by rewrite !app_nil_r. }
  simpl. destruct (trackedAssets !! s) as [asset|].
  - rewrite trackHistory_append. do 2 f_equal.
    unfold trackHistory. by destruct (_ && _), (_ && _).
  - by rewrite appendReports_noReports.
Qed.

(** A written entry does not change what any symbol adds to the
    tracked lists: the symbol written is a new crossing, which skips
    the history case. *)
Lemma historyOf_insert trackedAssets s e s' :
  eventOf ParseFloat KlinesDo today s = Some e ->
  historyOf ParseFloat KlinesDo (<[s := e]> trackedAssets) s'
  = historyOf ParseFloat KlinesDo trackedAssets s'.
Proof.
  intros (klines & HC & Hcross & _)%eventOf_Some.
  unfold historyOf. destruct (decide (s = s')) as [<-|Hne].
  - by rewrite HC, Hcross.
  - by rewrite lookup_insert_ne.
Qed.

Lemma passReports_insert trackedAssets s e symbols :
  eventOf ParseFloat KlinesDo today s = Some e ->
  passReports ParseFloat KlinesDo (<[s := e]> trackedAssets) symbols
  = passReports ParseFloat KlinesDo trackedAssets symbols.
Proof.
  intros He. unfold passReports, gainsOf, lossesOf. f_equal;
    apply flat_map_ext; intros s'; by rewrite (historyOf_insert _ _ _ _ He).
Qed.

Lemma passReports_cons trackedAssets s symbols :
  passReports ParseFloat KlinesDo trackedAssets (s :: symbols)
  = appendReports (passReports ParseFloat KlinesDo trackedAssets [s])
      (passReports ParseFloat KlinesDo trackedAssets symbols).
Proof.
  unfold passReports, appendReports. simpl. by rewrite !app_nil_r.
Qed.

Lemma analyzeSymbols_cons s symbols acc :
  analyzeSymbols ParseFloat KlinesDo today (s :: symbols) acc
  = analyzeSymbols ParseFloat KlinesDo today symbols
      (loopBody ParseFloat KlinesDo today acc s).
Proof. reflexivity. Qed.

Lemma analyzeSymbols_reports symbols trackedAssets r :
  (analyzeSymbols ParseFloat KlinesDo today symbols (trackedAssets, r)).2
  = appendReports r (passReports ParseFloat KlinesDo trackedAssets symbols).
Proof.
  revert trackedAssets r.
  induction symbols as [|s symbols IH]; intros trackedAssets r.
  - simpl. by rewrite appendReports_noReports.
  - rewrite analyzeSymbols_cons, loopBody_spec, IH, appendReports_assoc.
    f_equal. rewrite (passReports_cons trackedAssets s symbols). f_equal.
    destruct (eventOf ParseFloat KlinesDo today s) as [e|] eqn:He; [|done].
    by apply passReports_insert.
Qed.

Lemma analyzeSymbols_lookup symbols trackedAssets r s :
  (analyzeSymbols ParseFloat KlinesDo today symbols (trackedAssets, r)).1
    !! s
  = if bool_decide (s ∈ symbols) then
      match eventOf ParseFloat KlinesDo today s with
      | Some e => Some e
      | None => trackedAssets !! s
      end
    else trackedAssets !! s.
Proof.
  revert trackedAssets r.
  induction symbols as [|a symbols IH]; intros trackedAssets r.
  - done.
  - rewrite analyzeSymbols_cons, loopBody_spec, IH.
    destruct (decide (s = a)) as [->|Hne].
    + rewrite (bool_decide_eq_true_2 (a ∈ a :: symbols))
        by apply list_elem_of_here.
      destruct (eventOf ParseFloat KlinesDo today a) as [e|].
      * rewrite lookup_insert_eq. by case_bool_decide.
      * by case_bool_decide.
    + assert (Hin : bool_decide (s ∈ a :: symbols) = bool_decide (s ∈ symbols)).
      { apply bool_decide_ext. rewrite elem_of_cons.
        split; [intros [?|?]; done | by right]. }
      rewrite Hin.
      destruct (eventOf ParseFloat KlinesDo today a) as [e|];
        [by rewrite lookup_insert_ne|done].
Qed.

Lemma trackAndAnalyze_unfold trackedAssets :
  trackAndAnalyze ParseFloat KlinesDo ExchangeInfoDo today trackedAssets
  = analyzeSymbols ParseFloat KlinesDo today
      (getAllUSDTSymbols ExchangeInfoDo).1 (trackedAssets, noReports).
Proof.
  unfold trackAndAnalyze, getAllUSDTSymbols.
  destruct ExchangeInfoDo as [info [e|]]; done.
Qed.

Lemma trackAndAnalyze_lookup trackedAssets s :
  (trackAndAnalyze ParseFloat KlinesDo ExchangeInfoDo today trackedAssets).1
    !! s
  = if bool_decide (s ∈ (getAllUSDTSymbols ExchangeInfoDo).1) then
      match eventOf ParseFloat KlinesDo today s with
      | Some e => Some e
      | None => trackedAssets !! s
      end
    else trackedAssets !! s.
Proof. by rewrite trackAndAnalyze_unfold, analyzeSymbols_lookup. Qed.

(** An entry that differs after the pass was written by the pass. *)
Lemma changed_entry_written trackedAssets s :
  (trackAndAnalyze ParseFloat KlinesDo ExchangeInfoDo today trackedAssets).1
    !! s <> trackedAssets !! s ->
  s ∈ (getAllUSDTSymbols ExchangeInfoDo).1 /\
  exists e,
    eventOf ParseFloat KlinesDo today s = Some e /\
    (trackAndAnalyze ParseFloat KlinesDo ExchangeInfoDo today
       trackedAssets).1 !! s = Some e.
Proof.
  rewrite trackAndAnalyze_lookup. case_bool_decide; [|done].
  destruct (eventOf ParseFloat KlinesDo today s) as [e|]; [|done].
  intros _. split; [done|]. by exists e.
Qed.

(** C3 (amended): a pass never deletes an entry, and changes an
    existing entry only when the symbol has a new crossing today, a
    breakout or a breakdown, whatever the direction stored; the entry
    is then overwritten with today's event. *)
Theorem entry_kept_until_new_crossing trackedAssets s e :
  trackedAssets !! s = Some e ->
  is_Some ((trackAndAnalyze ParseFloat KlinesDo ExchangeInfoDo today
              trackedAssets).1 !! s)
  /\
  ((trackAndAnalyze ParseFloat KlinesDo ExchangeInfoDo today
      trackedAssets).1 !! s <> Some e ->
   exists klines,
     KlinesDo s = (klines, None) /\ 61 <= length klines /\
     (isNewBreakout ParseFloat klines || isNewBreakdown ParseFloat klines)
       = true /\
     (trackAndAnalyze ParseFloat KlinesDo ExchangeInfoDo today
        trackedAssets).1 !! s
     = Some {| Symbol := s;
               Status := if isNewBreakout ParseFloat klines
                         then "breakout" else "breakdown";
               EventPrice := latestClose ParseFloat klines;
               EventDate := today |}).
Proof.
  intros He. split.
  - rewrite trackAndAnalyze_lookup, He.
    case_bool_decide; [|by eexists].
    destruct (eventOf ParseFloat KlinesDo today s); by eexists.
  - rewrite <- He. intros (_ & e' & Hev & Hlook)%changed_entry_written.
    destruct (eventOf_Some _ _ Hev) as (klines & HC & Hcross & ->).
    apply candlesOf_Some in HC as [HK Hlen].
    exists klines. by rewrite Hlook.
Qed.


Lemma trackHistory_one_list s asset klines :
  trackedGains (trackHistory ParseFloat s asset klines noReports) = [] \/
  trackedLosses (trackHistory ParseFloat s asset klines noReports) = [].
Proof.
  unfold trackHistory.
  destruct (String.eqb_spec (Status asset) "breakout") as [->|_]; simpl.
  - destruct (Go.gt _ _); by right.
  - destruct (_ && _); by left.
Qed.

(** C6: the four lists of a pass are built symbol by symbol, and a
    symbol adds to at most one of them: a new breakout only to the
    daily breakouts, a new breakdown only to the daily breakdowns,
    and neither of them to the tracked gains or tracked losses. *)
Theorem report_lists_disjoint trackedAssets :
  (trackAndAnalyze ParseFloat KlinesDo ExchangeInfoDo today trackedAssets).2
  = passReports ParseFloat KlinesDo trackedAssets
      (getAllUSDTSymbols ExchangeInfoDo).1
  /\
  forall s,
    (is_Some (eventOf ParseFloat KlinesDo today s) ->
     gainsOf ParseFloat KlinesDo trackedAssets s = [] /\
     lossesOf ParseFloat KlinesDo trackedAssets s = []) /\
    (breakoutsOf ParseFloat KlinesDo s <> [] ->
     breakdownsOf ParseFloat KlinesDo s = [] /\
     gainsOf ParseFloat KlinesDo trackedAssets s = [] /\
     lossesOf ParseFloat KlinesDo trackedAssets s = []) /\
    (breakdownsOf ParseFloat KlinesDo s <> [] ->
     breakoutsOf ParseFloat KlinesDo s = [] /\
     gainsOf ParseFloat KlinesDo trackedAssets s = [] /\
     lossesOf ParseFloat KlinesDo trackedAssets s = []) /\
    (gainsOf ParseFloat KlinesDo trackedAssets s <> [] ->
     lossesOf ParseFloat KlinesDo trackedAssets s = []).
Proof.
  split.
  - rewrite trackAndAnalyze_unfold, analyzeSymbols_reports.
    unfold appendReports, passReports. by simpl.
  - intros s.
    unfold eventOf, breakoutsOf, breakdownsOf, gainsOf, lossesOf, historyOf.
    destruct (candlesOf KlinesDo s) as [klines|].
    2: { repeat split; try done; by intros [? ?]. }
    destruct (isNewBreakout ParseFloat klines) eqn:Hup.
    { rewrite (breakout_excludes_breakdown _ _ Hup). by simpl. }
    destruct (isNewBreakdown ParseFloat klines) eqn:Hdown.
    { by simpl. }
    simpl. repeat split; try done; try (by intros [? ?]).
    destruct (trackedAssets !! s) as [asset|]; [|done].
    by destruct (trackHistory_one_list s asset klines).
Qed.

End Pass.

(** ** A pass whose symbol listing fails *)

Section RunCheck.

Variable ParseFloat : string -> float * Go.error.
Variable KlinesDo : string -> list Binance.Kline * Go.error.
Variable today : string.
Variable MarshalIndent : gmap string TrackedAsset -> string * Go.error.
Variable Unmarshal : string -> gmap string TrackedAsset * Go.error.

Lemma append_assoc (a b c : string) : (a ++ b) ++ c = a ++ (b ++ c).
Proof.
  induction a as [|x a IH]; [done|].
  change (String x ((a ++ b) ++ c) = String x (a ++ (b ++ c))).
  by rewrite IH.
Qed.


(** What the program itself adds to a save followed by a load: given
    a codec that gives the map back, the file is read again as the
    map saved, provided the encoding is not empty. *)
Lemma load_after_save trackedAssets data w :
  MarshalIndent trackedAssets = (data, None) ->
  Unmarshal data = (trackedAssets, None) ->
  data <> "" ->
  writable w = true ->
  loadStateFromFile Unmarshal (saveStateToFile MarshalIndent trackedAssets w).1
  = (trackedAssets, None).
Proof.
  intros Hm Hu Hne Hw. unfold saveStateToFile, loadStateFromFile.
  rewrite Hm, Hw. simpl. destruct data as [|c data]; [done|].
  simpl. by rewrite Hu.
Qed.

End RunCheck.

(** ** The pass of [Demo], evaluated *)

(** The scenario of the specification: MA60 = 50, yesterday 49, today
    51, then printed with price 51.000000. *)
Example demo_reports :
  (Demo.pass Demo.tracked0).2 =
  {| dailyBreakouts := ["ABCUSDT (突破价: 51.000000)"];
     dailyBreakdowns := ["XYZUSDT (跌破价: 49.000000)";
                         "BADUSDT (跌破价: 0.000000)"];
     trackedGains := ["UPUSDT (从 100.000000 至今涨幅: 10.00%)"];
     trackedLosses := ["DOWNUSDT (从 100.000000 至今跌幅: 10.00%)"] |}.
Proof. vm_compute. reflexivity. Qed.

(** The following pass of the specification: bought at 51, today 55. *)
Example demo_gain_report :
  gainReport "ABCUSDT" (Demo.asset "ABCUSDT" "breakout" 51 "2024-03-05") 55
  = "ABCUSDT (从 51.000000 至今涨幅: 7.84%)".
Proof. vm_compute. reflexivity. Qed.

(** C3, as stated, fails: ABCUSDT is stored as a breakout and crosses
    upwards again today; its entry is rewritten although no breakdown
    happened. *)
Lemma same_direction_crossing_overwrites :
  ~ changedOnlyByOppositeCrossing Strconv.parseDecimal
      (Demo.klinesFrom Demo.market) (Demo.listing Demo.symbols) Demo.today.
Proof.
  intros H.
  destruct (H Demo.tracked0 "ABCUSDT"
              (Demo.asset "ABCUSDT" "breakout" 40 "2024-02-01"))
    as (klines & HC & [[_ Hdown]|[Hst _]]).
  - vm_compute. reflexivity.
  - vm_compute. discriminate.
  - vm_compute in HC. injection HC as <-.
    vm_compute in Hdown. discriminate.
  - discriminate.
Qed.


(** ** The theorems at the symbols of [Demo] *)

Lemma ma60_mean_of_first_sixty_witness :
  61 <= length (Demo.candles Demo.crossingUp) /\
  ma60 Strconv.parseDecimal (Demo.candles Demo.crossingUp) =
    arithmeticMean
      (map (fun k => (Strconv.parseDecimal (Binance.Close k)).1)
         (take 60 (Demo.candles Demo.crossingUp))).
Proof.
  assert (Hlen : 61 <= length (Demo.candles Demo.crossingUp))
    by (vm_compute; lia).
  split; [exact Hlen|].
  exact (proj1 (ma60_mean_of_first_sixty Strconv.parseDecimal
                  (Demo.candles Demo.crossingUp) Hlen)).
Defined.


Lemma entry_kept_until_new_crossing_witness :
  Demo.tracked0 !! "FLATUSDT"
    = Some (Demo.asset "FLATUSDT" "breakout" 80 "2024-01-15") /\
  is_Some ((Demo.pass Demo.tracked0).1 !! "FLATUSDT").
Proof.
  assert (H : Demo.tracked0 !! "FLATUSDT"
              = Some (Demo.asset "FLATUSDT" "breakout" 80 "2024-01-15"))
    by (vm_compute; reflexivity).
  split; [exact H|].
  exact (proj1 (entry_kept_until_new_crossing Strconv.parseDecimal
                  (Demo.klinesFrom Demo.market) (Demo.listing Demo.symbols)
                  Demo.today Demo.tracked0 "FLATUSDT" _ H)).
Defined.

Lemma on_average_is_silent_witness :
  PrimFloat.eqb
    (latestClose Strconv.parseDecimal (Demo.candles Demo.onAverage))
    (ma60 Strconv.parseDecimal (Demo.candles Demo.onAverage)) = true /\
  loopBody Strconv.parseDecimal (Demo.klinesFrom Demo.market) Demo.today
    (Demo.tracked0, noReports) "FLATUSDT"
  = (Demo.tracked0, noReports).
Proof.
  assert (Heq : PrimFloat.eqb
                  (latestClose Strconv.parseDecimal
                     (Demo.candles Demo.onAverage))
                  (ma60 Strconv.parseDecimal (Demo.candles Demo.onAverage))
                = true) by (vm_compute; reflexivity).
  split; [exact Heq|].
  destruct (on_average_is_silent Strconv.parseDecimal
              (Demo.klinesFrom Demo.market) Demo.today "FLATUSDT"
              (Demo.candles Demo.onAverage) Demo.tracked0 noReports)
    as [Hsilent _]; [reflexivity | vm_compute; lia |].
  exact (proj1 (proj2 (proj2 (Hsilent Heq)))).
Defined.

Lemma short_history_skipped_witness :
  length (Demo.candles Demo.tooShort) < 61 /\
  forall acc,
    loopBody Strconv.parseDecimal (Demo.klinesFrom Demo.market) Demo.today
      acc "NEWUSDT" = acc.
Proof.
  assert (Hlen : length (Demo.candles Demo.tooShort) < 61)
    by (vm_compute; lia).
  split; [exact Hlen|].
  exact (proj1 (short_history_skipped Strconv.parseDecimal
                  (Demo.klinesFrom Demo.market) Demo.today "NEWUSDT"
                  (Demo.candles Demo.tooShort) None eq_refl
                  (or_intror Hlen))).
Defined.




(** ** Further properties of the loop body *)

Lemma SFcompare_refl (x : spec_float) :
  x <> S754_nan -> SFcompare x x = Some Eq.
Proof.
  destruct x as [sx|sx| |sx mx ex]; simpl; intros Hx.
  - done.
  - by destruct sx.
  - done.
  - change (Pos.compare_cont Eq mx mx) with (mx ?= mx)%positive.
    rewrite Z.compare_refl, Pos.compare_refl. by destruct sx.
Qed.

Lemma isNaN_spec (x : float) : isNaN x = true -> Prim2SF x = S754_nan.
Proof.
  unfold isNaN. rewrite FloatAxioms.eqb_spec. unfold SFeqb.
  destruct (Prim2SF x) as [sx|sx| |sx mx ex] eqn:Hx; [|  |done|].
  all: by rewrite SFcompare_refl.
Qed.

Lemma SFcompare_nan_r (x : spec_float) : SFcompare x S754_nan = None.
Proof. by destruct x. Qed.

(** A NaN compares false with everything, on either side. *)
Lemma nan_unordered (a b : float) :
  isNaN a = true ->
  Go.lt a b = false /\ Go.gt a b = false /\
  Go.le a b = false /\ Go.ge a b = false.
Proof.
  intros Ha%isNaN_spec. unfold Go.lt, Go.gt, Go.le, Go.ge.
  rewrite !ltb_spec, !leb_spec. unfold SFltb, SFleb.
  by rewrite Ha, SFcompare_nan_r.
Qed.

Lemma snoc_neq {A} (l : list A) (x : A) : app l [x] <> l.
Proof.
  intros H. apply (f_equal length) in H. rewrite length_app in H.
  simpl in H. lia.
Qed.

Section LoopBodyMore.

Variable ParseFloat : string -> float * Go.error.
Variable KlinesDo : string -> list Binance.Kline * Go.error.
Variable today : string.

Implicit Types (s : string) (klines : list Binance.Kline).
Implicit Types (r : Reports) (trackedAssets : gmap string TrackedAsset).

(** X1: no day is both a new breakout and a new breakdown, so the order
    of the two tests in the loop body decides nothing. *)
Theorem crossing_directions_exclusive klines :
  isNewBreakout ParseFloat klines && isNewBreakdown ParseFloat klines = false.
Proof.
  destruct (isNewBreakout ParseFloat klines) eqn:Hup; [|done].
  simpl. by apply breakout_excludes_breakdown.
Qed.

(** X2: when MA60 or the latest close is NaN (a close that parses to
    NaN, or infinities of both signs in the sum), the round changes
    nothing: no crossing is recorded and no tracked report is made. *)
Theorem nan_is_silent s klines trackedAssets r :
  KlinesDo s = (klines, None) ->
  61 <= length klines ->
  isNaN (ma60 ParseFloat klines) = true \/
  isNaN (latestClose ParseFloat klines) = true ->
  loopBody ParseFloat KlinesDo today (trackedAssets, r) s
  = (trackedAssets, r).
Proof.
  intros HK Hlen Hnan.
  assert (HC : candlesOf KlinesDo s = Some klines)
    by (by apply candlesOf_Some).
  assert (Hgt : Go.gt (latestClose ParseFloat klines) (ma60 ParseFloat klines)
                = false).
  { destruct Hnan as [Hm|Hl].
    - by destruct (nan_unordered _ (latestClose ParseFloat klines) Hm)
        as (? & _ & _ & _).
    - by destruct (nan_unordered _ (ma60 ParseFloat klines) Hl)
        as (_ & ? & _ & _). }
  assert (Hlt : Go.lt (latestClose ParseFloat klines) (ma60 ParseFloat klines)
                = false).
  { destruct Hnan as [Hm|Hl].
    - by destruct (nan_unordered _ (latestClose ParseFloat klines) Hm)
        as (_ & ? & _ & _).
    - by destruct (nan_unordered _ (ma60 ParseFloat klines) Hl)
        as (? & _ & _ & _). }
  rewrite loopBody_unfold, HC.
  unfold isNewBreakout, isNewBreakdown, trackHistory. rewrite Hgt, Hlt. simpl.
  destruct (trackedAssets !! s); [|done]. by rewrite !andb_false_r.
Qed.

(** X3: a round adds a tracked-gain report exactly when the symbol has
    an entry with status breakout, latestClose > MA60 and not
    previousClose <= MA60; it adds a tracked-loss report exactly when
    the entry has status breakdown, latestClose < MA60 and not
    previousClose >= MA60.  An entry with any other status is never
    reported. *)
Theorem tracked_report_iff s klines trackedAssets r :
  KlinesDo s = (klines, None) ->
  61 <= length klines ->
  (trackedGains (loopBody ParseFloat KlinesDo today (trackedAssets, r) s).2
     <> trackedGains r <->
   exists asset,
     trackedAssets !! s = Some asset /\ Status asset = "breakout" /\
     Go.gt (latestClose ParseFloat klines) (ma60 ParseFloat klines) = true /\
     Go.le (previousClose ParseFloat klines) (ma60 ParseFloat klines) = false)
  /\
  (trackedLosses (loopBody ParseFloat KlinesDo today (trackedAssets, r) s).2
     <> trackedLosses r <->
   exists asset,
     trackedAssets !! s = Some asset /\ Status asset = "breakdown" /\
     Go.lt (latestClose ParseFloat klines) (ma60 ParseFloat klines) = true /\
     Go.ge (previousClose ParseFloat klines) (ma60 ParseFloat klines) = false).
Proof.
  intros HK Hlen.
  assert (HC : candlesOf KlinesDo s = Some klines)
    by (by apply candlesOf_Some).
  rewrite loopBody_unfold, HC.
  unfold isNewBreakout, isNewBreakdown, trackHistory.
  destruct (Go.gt (latestClose ParseFloat klines) (ma60 ParseFloat klines))
    eqn:Hgt;
  destruct (Go.lt (latestClose ParseFloat klines) (ma60 ParseFloat klines))
    eqn:Hlt.
  { unfold Go.gt, Go.lt in *. by rewrite (ltb_asym _ _ Hlt) in Hgt. }
  all: destruct (Go.le (previousClose ParseFloat klines)
                   (ma60 ParseFloat klines)) eqn:Hle;
    destruct (Go.ge (previousClose ParseFloat klines)
                (ma60 ParseFloat klines)) eqn:Hge; simpl.
  all: try (split; (split; [done | by intros (? & _ & _ & ? & ?)])).
  all: destruct (trackedAssets !! s) as [asset|] eqn:Hasset; simpl.
  all: try (split; (split; [done | by intros (? & ? & _)])).
  all: rewrite ?andb_true_r, ?andb_false_r.
  all: destruct (String.eqb_spec (Status asset) "breakout") as [Hb|Hb];
    destruct (String.eqb_spec (Status asset) "breakdown") as [Hd|Hd]; simpl.
  all: try (rewrite Hb in Hd; discriminate).
  all: split; (split;
         [ first [ done | intros _; by exists asset ]
         | first [ intros _; apply snoc_neq
                 | intros (a & [= <-] & ? & _); congruence
                 | by intros (? & _ & _ & ? & ?) ] ]).
Qed.

End LoopBodyMore.

(** ** Further properties of a pass *)

Section PassMore.

Variable ParseFloat : string -> float * Go.error.
Variable KlinesDo : string -> list Binance.Kline * Go.error.
Variable ExchangeInfoDo : Binance.ExchangeInfo * Go.error.
Variable today : string.

Implicit Types (s : string) (klines : list Binance.Kline).
Implicit Types (r : Reports) (trackedAssets : gmap string TrackedAsset).

Lemma eventOf_None_history s :
  eventOf ParseFloat KlinesDo today s = None ->
  forall klines,
    candlesOf KlinesDo s = Some klines ->
    isNewBreakout ParseFloat klines || isNewBreakdown ParseFloat klines
    = false.
Proof.
  unfold eventOf. intros He klines HC. rewrite HC in He.
  destruct (isNewBreakout ParseFloat klines); [done|].
  by destruct (isNewBreakdown ParseFloat klines).
Qed.

(** What a symbol adds to the tracked lists depends on the map only
    through the entry of that symbol, and not at all when the symbol has
    a new crossing. *)
Lemma historyOf_agree trackedAssets trackedAssets' s :
  (eventOf ParseFloat KlinesDo today s = None ->
   trackedAssets' !! s = trackedAssets !! s) ->
  historyOf ParseFloat KlinesDo trackedAssets' s
  = historyOf ParseFloat KlinesDo trackedAssets s.
Proof.
  intros Hagree. unfold historyOf.
  destruct (candlesOf KlinesDo s) as [klines|] eqn:HC; [|done].
  destruct (isNewBreakout ParseFloat klines || isNewBreakdown ParseFloat klines)
    eqn:Hcross; [done|].
  rewrite Hagree; [done|].
  unfold eventOf. rewrite HC.
  apply orb_false_elim in Hcross as [-> ->]. done.
Qed.

Lemma passReports_agree trackedAssets trackedAssets' symbols :
  (forall s, eventOf ParseFloat KlinesDo today s = None ->
             trackedAssets' !! s = trackedAssets !! s) ->
  passReports ParseFloat KlinesDo trackedAssets' symbols
  = passReports ParseFloat KlinesDo trackedAssets symbols.
Proof.
  intros Hagree. unfold passReports, gainsOf, lossesOf. f_equal;
    apply flat_map_ext; intros s; by rewrite (historyOf_agree _ _ s (Hagree s)).
Qed.

Lemma one_report_per_symbol trackedAssets s :
  length (breakoutsOf ParseFloat KlinesDo s)
  + length (breakdownsOf ParseFloat KlinesDo s)
  + length (gainsOf ParseFloat KlinesDo trackedAssets s)
  + length (lossesOf ParseFloat KlinesDo trackedAssets s) <= 1.
Proof.
  unfold breakoutsOf, breakdownsOf, gainsOf, lossesOf, historyOf.
  destruct (candlesOf KlinesDo s) as [klines|]; [|simpl; lia].
  destruct (isNewBreakout ParseFloat klines); [simpl; lia|].
  destruct (isNewBreakdown ParseFloat klines); [simpl; lia|]. simpl.
  destruct (trackedAssets !! s) as [asset|]; [|simpl; lia].
  unfold trackHistory.
  destruct (String.eqb_spec (Status asset) "breakout") as [->|_]; simpl.
  - destruct (Go.gt _ _); simpl; lia.
  - destruct (_ && _); simpl; lia.
Qed.


(** X5: a pass keeps the map well formed: if every entry sits under its
    own symbol with status breakout or breakdown before the pass, the
    same holds after it. *)
Theorem well_formed_preserved trackedAssets :
  wellFormed trackedAssets ->
  wellFormed
    (trackAndAnalyze ParseFloat KlinesDo ExchangeInfoDo today trackedAssets).1.
Proof.
  intros Hwf k e. rewrite trackAndAnalyze_lookup.
  case_bool_decide; [|apply Hwf].
  destruct (eventOf ParseFloat KlinesDo today k) as [e'|] eqn:Hev;
    [|apply Hwf].
  intros [= <-].
  destruct (eventOf_Some _ _ _ _ _ Hev) as (klines & _ & _ & ->). simpl.
  split; [done|]. destruct (isNewBreakout ParseFloat klines); [by left|by right].
Qed.

(** X6: a pass only adds keys, and only listed symbols: the symbols
    tracked before are still tracked, and a symbol tracked after the
    pass was tracked before or is one of the listed symbols. *)
Theorem tracked_symbols_bounds trackedAssets :
  dom trackedAssets ⊆
    dom (trackAndAnalyze ParseFloat KlinesDo ExchangeInfoDo today
           trackedAssets).1
  /\
  dom (trackAndAnalyze ParseFloat KlinesDo ExchangeInfoDo today
         trackedAssets).1
    ⊆ dom trackedAssets ∪ list_to_set (getAllUSDTSymbols ExchangeInfoDo).1.
Proof.
  split; intros s.
  - rewrite !elem_of_dom, trackAndAnalyze_lookup.
    intros Hs. case_bool_decide; [|done].
    destruct (eventOf ParseFloat KlinesDo today s); [by eexists|done].
  - rewrite elem_of_union, !elem_of_dom, elem_of_list_to_set,
      trackAndAnalyze_lookup.
    case_bool_decide; [by right|by left].
Qed.

(** X7: a pass makes at most one report per listed symbol: the four
    lists together are no longer than the list of symbols. *)
Theorem at_most_one_report_per_symbol trackedAssets :
  totalReports
    (trackAndAnalyze ParseFloat KlinesDo ExchangeInfoDo today trackedAssets).2
  <= length (getAllUSDTSymbols ExchangeInfoDo).1.
Proof.
  rewrite trackAndAnalyze_unfold, analyzeSymbols_reports.
  unfold totalReports, appendReports, passReports. simpl.
  induction (getAllUSDTSymbols ExchangeInfoDo).1 as [|s symbols IH];
    [simpl; lia|].
  simpl. rewrite !length_app.
  pose proof (one_report_per_symbol trackedAssets s). lia.
Qed.

(** X8: running the analysis again on the same candles (a restart on
    the same day) returns the same map and the same four lists as the
    first run. *)
Theorem pass_idempotent trackedAssets :
  trackAndAnalyze ParseFloat KlinesDo ExchangeInfoDo today
    (trackAndAnalyze ParseFloat KlinesDo ExchangeInfoDo today trackedAssets).1
  = trackAndAnalyze ParseFloat KlinesDo ExchangeInfoDo today trackedAssets.
Proof.
  apply injective_projections.
  - apply map_eq. intros s. rewrite !trackAndAnalyze_lookup.
    case_bool_decide; [|done].
    by destruct (eventOf ParseFloat KlinesDo today s).
  - rewrite (trackAndAnalyze_unfold _ _ _ _ (trackAndAnalyze _ _ _ _ _).1).
    rewrite (trackAndAnalyze_unfold _ _ _ _ trackedAssets).
    rewrite !analyzeSymbols_reports. f_equal.
    apply passReports_agree. intros s Hev.
    rewrite <- trackAndAnalyze_unfold, trackAndAnalyze_lookup, Hev.
    by case_bool_decide.
Qed.

(** X9: the order in which the symbols are processed, and repetitions
    apart, does not matter: two orders of the same symbols give the same
    map, and each of the four lists holds the same reports up to
    order. *)
Theorem symbol_order_irrelevant symbols symbols' trackedAssets :
  Permutation symbols symbols' ->
  (analyzeSymbols ParseFloat KlinesDo today symbols
     (trackedAssets, noReports)).1
  = (analyzeSymbols ParseFloat KlinesDo today symbols'
       (trackedAssets, noReports)).1
  /\ Permutation
       (dailyBreakouts (analyzeSymbols ParseFloat KlinesDo today symbols
                          (trackedAssets, noReports)).2)
       (dailyBreakouts (analyzeSymbols ParseFloat KlinesDo today symbols'
                          (trackedAssets, noReports)).2)
  /\ Permutation
       (dailyBreakdowns (analyzeSymbols ParseFloat KlinesDo today symbols
                           (trackedAssets, noReports)).2)
       (dailyBreakdowns (analyzeSymbols ParseFloat KlinesDo today symbols'
                           (trackedAssets, noReports)).2)
  /\ Permutation
       (trackedGains (analyzeSymbols ParseFloat KlinesDo today symbols
                        (trackedAssets, noReports)).2)
       (trackedGains (analyzeSymbols ParseFloat KlinesDo today symbols'
                        (trackedAssets, noReports)).2)
  /\ Permutation
       (trackedLosses (analyzeSymbols ParseFloat KlinesDo today symbols
                         (trackedAssets, noReports)).2)
       (trackedLosses (analyzeSymbols ParseFloat KlinesDo today symbols'
                         (trackedAssets, noReports)).2).
Proof.
  intros Hperm. split.
  - apply map_eq. intros s. rewrite !analyzeSymbols_lookup.
    assert (Hin : bool_decide (s ∈ symbols) = bool_decide (s ∈ symbols')).
    { apply bool_decide_ext. by rewrite Hperm. }
    by rewrite Hin.
  - rewrite !analyzeSymbols_reports. unfold appendReports, passReports. simpl.
    repeat split; by apply Permutation_flat_map.
Qed.

End PassMore.

(** ** The symbol listing, the state file and the report *)

Lemma bullets_fold (items : list string) (b : string) :
  fold_left (fun b item => b ++ ("- " ++ item ++ nl)) items b
  = b ++ bullets items.
Proof.
  revert b. induction items as [|item items IH]; intros b.
  - simpl. clear. induction b as [|c b IH]; [done|].
    change (String c b = String c (b ++ "")). by rewrite <- IH.
  - simpl fold_left. rewrite IH, append_assoc. f_equal.
    simpl bullets. by rewrite !append_assoc.
Qed.

Section StoreAndReport.

Variable ParseFloat : string -> float * Go.error.
Variable KlinesDo : string -> list Binance.Kline * Go.error.
Variable ExchangeInfoDo : Binance.ExchangeInfo * Go.error.
Variable today : string.
Variable MarshalIndent : gmap string TrackedAsset -> string * Go.error.
Variable Unmarshal : string -> gmap string TrackedAsset * Go.error.


(** X11: loading fails only for a file that cannot be read or whose
    non-empty content does not decode; a missing file and an empty file
    both give the empty map without error, and without decoding. *)
Theorem load_outcomes w :
  ((loadStateFromFile Unmarshal w).2 <> None <->
   stateFile w = Unreadable \/
   exists data,
     stateFile w = FileData data /\ data <> "" /\ (Unmarshal data).2 <> None)
  /\ (stateFile w = NoFile \/ stateFile w = FileData "" ->
      loadStateFromFile Unmarshal w = (∅, None))
  /\ (forall data m,
        stateFile w = FileData data -> data <> "" ->
        Unmarshal data = (m, None) ->
        loadStateFromFile Unmarshal w = (m, None)).
Proof.
  unfold loadStateFromFile. repeat split.
  - destruct (stateFile w) as [| |data]; simpl; [done|by left|].
    destruct data as [|c data]; [done|]. simpl.
    intros H. right. exists (String c data). split; [done|]. split; [done|].
    destruct (Unmarshal (String c data)) as [m [e|]]; done.
  - intros [->|(data & -> & Hne & Herr)]; [done|].
    destruct data as [|c data]; [done|]. simpl.
    destruct (Unmarshal (String c data)) as [m [e|]]; done.
  - by intros [->| ->].
  - intros data m -> Hne Hm. destruct data as [|c data]; [done|].
    simpl. by rewrite Hm.
Qed.

(** X12: the report is the header followed by the four sections in a
    fixed order; a section is its title, then one bullet line per item
    in order, or the placeholder line when it has no item. *)
Theorem report_layout r :
  reportText today r =
    "### MA60 均线监控日报 (" ++ today ++ ")" ++ nl ++ nl
    ++ sectionText "🚀 当日突破 (MA60)" (dailyBreakouts r)
    ++ sectionText "🚨 当日跌破 (MA60)" (dailyBreakdowns r)
    ++ sectionText "📈 已突破币种追踪" (trackedGains r)
    ++ sectionText "📉 已跌破币种追踪" (trackedLosses r).
Proof.
  assert (Hsec : forall b title items,
             formatSection b title items = b ++ sectionText title items).
  { intros b title items. unfold formatSection, sectionText.
    destruct items as [|item items].
    - simpl. by rewrite !append_assoc.
    - change (0 <? length (item :: items))%nat with true. cbv iota.
      rewrite bullets_fold. by rewrite !append_assoc. }
  unfold reportText. rewrite !Hsec. by rewrite !append_assoc.
Qed.



End StoreAndReport.

(** ** The further properties at the symbols of [Demo] *)

Lemma nan_is_silent_witness :
  isNaN (ma60 Demo.parseWithNaN (Demo.candles Demo.nanInHistory)) = true /\
  loopBody Demo.parseWithNaN
    (Demo.klinesFrom [("NANUSDT", Demo.nanInHistory)]) Demo.today
    (Demo.tracked0, noReports) "NANUSDT"
  = (Demo.tracked0, noReports).
Proof.
  assert (Hnan : isNaN (ma60 Demo.parseWithNaN
                          (Demo.candles Demo.nanInHistory)) = true)
    by (vm_compute; reflexivity).
  split; [exact Hnan|].
  apply (nan_is_silent Demo.parseWithNaN
           (Demo.klinesFrom [("NANUSDT", Demo.nanInHistory)]) Demo.today
           "NANUSDT" (Demo.candles Demo.nanInHistory)).
  - reflexivity.
  - vm_compute. lia.
  - left. exact Hnan.
Defined.

Lemma tracked_report_iff_witness :
  trackedGains
    (loopBody Strconv.parseDecimal (Demo.klinesFrom Demo.market) Demo.today
       (Demo.tracked0, noReports) "UPUSDT").2
  <> trackedGains noReports.
Proof.
  destruct (tracked_report_iff Strconv.parseDecimal
              (Demo.klinesFrom Demo.market) Demo.today "UPUSDT"
              (Demo.candles Demo.stillAbove) Demo.tracked0 noReports)
    as [[_ Hgain] _]; [reflexivity | vm_compute; lia |].
  apply Hgain.
  exists (Demo.asset "UPUSDT" "breakout" 100 "2024-02-10").
  repeat split; vm_compute; reflexivity.
Defined.

Lemma well_formed_preserved_witness :
  wellFormed Demo.tracked0 /\ wellFormed (Demo.pass Demo.tracked0).1.
Proof.
  assert (Hwf : wellFormed Demo.tracked0).
  { intros k e. unfold Demo.tracked0.
    rewrite !lookup_insert_Some, lookup_empty.
    intros [[<- <-]|[_ [[<- <-]|[_ [[<- <-]|[_ [[<- <-]|[_ [[<- <-]|[_ ?]]]]]]]]]];
      [split; [reflexivity | first [by left | by right]] .. | done]. }
  split; [exact Hwf|].
  exact (well_formed_preserved Strconv.parseDecimal
           (Demo.klinesFrom Demo.market) (Demo.listing Demo.symbols)
           Demo.today Demo.tracked0 Hwf).
Defined.

Lemma symbol_order_irrelevant_witness :
  (analyzeSymbols Strconv.parseDecimal (Demo.klinesFrom Demo.market)
     Demo.today ["ABCUSDT"; "XYZUSDT"] (Demo.tracked0, noReports)).1
  = (analyzeSymbols Strconv.parseDecimal (Demo.klinesFrom Demo.market)
       Demo.today ["XYZUSDT"; "ABCUSDT"] (Demo.tracked0, noReports)).1.
Proof.
  exact (proj1 (symbol_order_irrelevant Strconv.parseDecimal
                  (Demo.klinesFrom Demo.market) Demo.today
                  ["ABCUSDT"; "XYZUSDT"] ["XYZUSDT"; "ABCUSDT"]
                  Demo.tracked0 (perm_swap _ _ _))).
Defined.


(** The listing keeps BTCUSDT and ETHUSDT and drops the pair quoted in
    BTC, the halted pair and the pair closed to spot trading. *)
Example demo_listing :
  getAllUSDTSymbols (Demo.mixedListing, None) = (["BTCUSDT"; "ETHUSDT"], None).
Proof. reflexivity. Qed.

(** ** An entry whose event price is zero *)

Lemma eqb_zero_spec (e : float) :
  PrimFloat.eqb e 0 = true -> exists sign, Prim2SF e = S754_zero sign.
Proof.
  rewrite FloatAxioms.eqb_spec.
  change (Prim2SF 0) with (S754_zero false). unfold SFeqb.
  destruct (Prim2SF e) as [sx|sx| |sx mx ex]; simpl.
  - intros _. by exists sx.
  - by destruct sx.
  - done.
  - by destruct sx.
Qed.

(** Dividing by zero and scaling by 100 leaves an infinity or NaN. *)
Lemma percent_of_zero_base (n e : float) :
  PrimFloat.eqb e 0 = true ->
  Prim2SF (n / e * 100) = S754_nan \/
  exists sign, Prim2SF (n / e * 100) = S754_infinity sign.
Proof.
  intros [se He]%eqb_zero_spec.
  rewrite mul_spec, div_spec, He.
  change (Prim2SF 100) with (S754_finite false 7036874417766400 (-46)).
  destruct (Prim2SF n) as [sn|sn| |sn mn en]; simpl.
  - by left.
  - right. by eexists.
  - by left.
  - right. by eexists.
Qed.

(** X15: for an entry whose event price is zero (one is written when
    the crossing close is zero or does not parse) the percentage is a
    division by zero: the tracked report still comes out, and reads
    NaN%, +Inf% or -Inf%. *)
Theorem zero_event_price_report s asset latest :
  PrimFloat.eqb (EventPrice asset) 0 = true ->
  (exists p,
     (p = "NaN" \/ p = "+Inf" \/ p = "-Inf") /\
     gainReport s asset latest
     = s ++ " (从 " ++ Go.fmt_f (EventPrice asset) ++ " 至今涨幅: "
         ++ p ++ "%)")
  /\
  (exists p,
     (p = "NaN" \/ p = "+Inf" \/ p = "-Inf") /\
     lossReport s asset latest
     = s ++ " (从 " ++ Go.fmt_f (EventPrice asset) ++ " 至今跌幅: "
         ++ p ++ "%)").
Proof.
  intros Hzero. unfold gainReport, lossReport, Go.fmt_2f, Go.formatFixed.
  split.
  - destruct (percent_of_zero_base (latest - EventPrice asset)
                (EventPrice asset) Hzero) as [->|[sign ->]].
    + exists "NaN". split; [by left|done].
    + destruct sign.
      * exists "-Inf". split; [by right; right|done].
      * exists "+Inf". split; [by right; left|done].
  - destruct (percent_of_zero_base (EventPrice asset - latest)
                (EventPrice asset) Hzero) as [->|[sign ->]].
    + exists "NaN". split; [by left|done].
    + destruct sign.
      * exists "-Inf". split; [by right; right|done].
      * exists "+Inf". split; [by right; left|done].
Qed.

Lemma zero_event_price_report_witness :
  PrimFloat.eqb (EventPrice (Demo.asset "BADUSDT" "breakdown" 0 "2024-03-05"))
    0 = true /\
  exists p,
    (p = "NaN" \/ p = "+Inf" \/ p = "-Inf") /\
    lossReport "BADUSDT" (Demo.asset "BADUSDT" "breakdown" 0 "2024-03-05") 0.5
    = "BADUSDT" ++ " (从 " ++ Go.fmt_f 0 ++ " 至今跌幅: " ++ p ++ "%)".
Proof.
  split; [reflexivity|].
  exact (proj2 (zero_event_price_report "BADUSDT"
                  (Demo.asset "BADUSDT" "breakdown" 0 "2024-03-05") 0.5
                  eq_refl)).
Defined.

(** Half a unit above a zero event price prints as -Inf%. *)
Example demo_zero_price_loss :
  lossReport "BADUSDT" (Demo.asset "BADUSDT" "breakdown" 0 "2024-03-05") 0.5
  = "BADUSDT (从 0.000000 至今跌幅: -Inf%)".
Proof. vm_compute. reflexivity. Qed.
